(** * Identity resolution: [create_and_fetch_identity]

    A shallow embedding of [src/function.py].  The coroutine talks to a
    remote service through an aiohttp session: it probes the "get"
    endpoint, posts to the "create" endpoint, sleeps, and polls "get" up
    to three times.  The embedding keeps the control flow of the source
    (nested [try]/[except], [async with], early [return], the [for] loop)
    in a small monad whose state records every observable action in a
    trace: session open and close, each POST, each sleep.

    What is outside the model: the [print] diagnostics and the unused
    [create_start = time.time()] have no influence on the control flow
    and leave no event.  The exceptions are those the operations raise
    (transport, status, decoding, attribute and key errors, session
    construction); all of them derive from Python's [Exception]. *)

From Stdlib Require Import ZArith List String Bool Lia PrimFloat.
#[local] Set Warnings "-register-all".
Import ListNotations.
Local Open Scope string_scope.
Local Open Scope Z_scope.

(** ** Python values *)

Module Py.

(** The objects [json()] can produce, and [None].  A [VDict] lists its
    items in the order of the document; when a key occurs twice the later
    item is the one a lookup sees, as in the dict [json.loads] builds. *)
Inductive value : Type :=
| VNone
| VBool (b : bool)
| VInt (z : Z)
| VFloat (f : float)
| VStr (s : string)
| VList (l : list value)
| VDict (items : list (string * value)).

(** [bool(v)]: the truth value Python's [if] and [and] test. *)
Definition truthy (v : value) : bool :=
  match v with
  | VNone => false
  | VBool b => b
  | VInt z => negb (z =? 0)
  | VFloat f => negb (PrimFloat.eqb f 0%float)
  | VStr s => negb (s =? "")%string
  | VList l => match l with [] => false | _ :: _ => true end
  | VDict items => match items with [] => false | _ :: _ => true end
  end.

(** [v != s] for a string literal [s]: only an equal [str] compares equal. *)
Definition ne_str (v : value) (s : string) : bool :=
  match v with
  | VStr t => negb (t =? s)%string
  | _ => true
  end.

Fixpoint lookup (key : string) (items : list (string * value)) : option value :=
  match items with
  | [] => None
  | (k, v) :: rest =>
      match lookup key rest with
      | Some w => Some w
      | None => if (k =? key)%string then Some v else None
      end
  end.

Inductive exn : Type :=
| ClientError           (* aiohttp transport failure, time-out included *)
| ClientResponseError   (* raise_for_status *)
| JSONDecodeError       (* json(): body or content type not JSON *)
| AttributeError
| KeyError
| TypeError
| IndexError
| RuntimeError.

End Py.
Import Py.

(** ** The remote service and the trace *)

Inductive body : Type :=
| Malformed
| Json (v : value).

Record response : Type := mkResponse { status : Z; content : body }.

Inductive reply : Type :=
| TransportError (e : exn)
| Responded (r : response).

(** The observable actions of the coroutine.  [Post url json] is one call
    [session.post(url, json=json)], recorded with the arguments the
    coroutine passes. *)
Inductive event : Type :=
| SessionOpen (total : Z)
| SessionClose
| Post (url : string) (json : value)
| Sleep (secs : Z).

(** The world of one invocation: the environment variable, whether the
    session can be constructed, and the remote's answer to the [n]-th
    request (counted from 0) given its URL and JSON payload. *)
Record env : Type := mkEnv {
  getenv_UDP_BASE_URL : option string;
  session_error : option exn;
  remote : nat -> string -> value -> reply
}.

Record state : Type := mkState { sent : nat; trace : list event }.

Definition log (ev : event) (st : state) : state :=
  {| sent := sent st; trace := trace st ++ [ev] |}.

(** ** Control flow *)

(** How a block of statements ends: it runs through, it executes
    [return v], or it raises. *)
Inductive completion (A : Type) : Type :=
| Normal (a : A)
| Return (v : value)
| Raise (e : exn).
Arguments Normal {A} a.
Arguments Return {A} v.
Arguments Raise {A} e.

Definition M (A : Type) : Type := env -> state -> completion A * state.

Definition ret {A} (a : A) : M A := fun _ st => (Normal a, st).

Definition bind {A B} (m : M A) (k : A -> M B) : M B :=
  fun w st =>
    match m w st with
    | (Normal a, st') => k a w st'
    | (Return v, st') => (Return v, st')
    | (Raise e, st') => (Raise e, st')
    end.

Definition return_ {A} (v : value) : M A := fun _ st => (Return v, st).
Definition raise {A} (e : exn) : M A := fun _ st => (Raise e, st).

Declare Scope py_scope.
Delimit Scope py_scope with py.
Notation "x <- c ;; k" := (bind c (fun x => k))
  (at level 100, c at next level, right associativity) : py_scope.
Notation "c ;; k" := (bind c (fun _ => k))
  (at level 100, right associativity) : py_scope.
Local Open Scope py_scope.

(** [try: body  except Exception as e: handler e]. *)
Definition try_except {A} (body : M A) (handler : exn -> M A) : M A :=
  fun w st =>
    match body w st with
    | (Raise e, st') => handler e w st'
    | r => r
    end.

(** [for i in xs: body i]. *)
Fixpoint for_in (xs : list nat) (body : nat -> M unit) : M unit :=
  match xs with
  | [] => ret tt
  | i :: rest => body i ;; for_in rest body
  end.

Definition range (n : nat) : list nat := seq 0 n.

(** ** Library operations *)

(** [async with aiohttp.ClientSession(timeout=ClientTimeout(total=t))]:
    construction may fail; once entered, the session is closed however
    the block ends. *)
Definition with_ClientSession {A} (total : Z) (block : M A) : M A :=
  fun w st =>
    match session_error w with
    | Some e => (Raise e, st)
    | None =>
        let '(c, st') := block w (log (SessionOpen total) st) in
        (c, log SessionClose st')
    end.

(** [session.post(url, json=data)]. *)
Definition post (url : string) (data : value) : M response :=
  fun w st =>
    let st' := {| sent := S (sent st); trace := trace st ++ [Post url data] |} in
    match remote w (sent st) url data with
    | TransportError e => (Raise e, st')
    | Responded r => (Normal r, st')
    end.

(** aiohttp's [ClientResponse.ok] is [400 > status]: a status below 400,
    2xx or not, counts as ok. *)
Definition ok (r : response) : bool := status r <? 400.

(** [ClientResponse.raise_for_status()] raises when [ok] is false. *)
Definition raise_for_status (r : response) : M unit :=
  if ok r then ret tt else raise ClientResponseError.

(** [await response.json()]. *)
Definition json (r : response) : M value :=
  match content r with
  | Malformed => raise JSONDecodeError
  | Json v => ret v
  end.

(** [await asyncio.sleep(secs)]. *)
Definition sleep (secs : Z) : M unit :=
  fun _ st => (Normal tt, log (Sleep secs) st).

(** [d.get(key)]: only a dict has the method. *)
Definition get (d : value) (key : string) : M value :=
  match d with
  | VDict items =>
      match lookup key items with
      | Some v => ret v
      | None => ret VNone
      end
  | _ => raise AttributeError
  end.

(** [d[key]] for a string key. *)
Definition getitem (d : value) (key : string) : M value :=
  match d with
  | VDict items =>
      match lookup key items with
      | Some v => ret v
      | None => raise KeyError
      end
  | _ => raise TypeError
  end.

(** [xs[i]] on a list of delays. *)
Definition index (xs : list Z) (i : nat) : M Z :=
  match nth_error xs i with
  | Some x => ret x
  | None => raise IndexError
  end.

(** An f-string field holding [os.getenv]'s result. *)
Definition fmt (o : option string) : string :=
  match o with
  | Some s => s
  | None => "None"
  end.

(** ** The coroutine *)

Definition create_identity_url (w : env) : string :=
  fmt (getenv_UDP_BASE_URL w) ++ "/identity/create".

Definition fetch_identity_url (w : env) : string :=
  fmt (getenv_UDP_BASE_URL w) ++ "/identity/get".

Definition payload (user_address : string) : value :=
  VDict [("walletAddress", VStr user_address)].

Definition max_retries : nat := 3.
Definition retry_delays : list Z := [5; 10; 15].

(** Lines 17-36: the existence probe. *)
Definition initial_fetch (url : string) (data : value) : M unit :=
  try_except
    (initial_fetch_response <- post url data ;;
     raise_for_status initial_fetch_response ;;
     initial_fetch_data <- json initial_fetch_response ;;
     d <- get initial_fetch_data "data" ;;
     if truthy d then
       d' <- getitem initial_fetch_data "data" ;;
       if ne_str d' "0" then
         omnikey_id <- getitem initial_fetch_data "data" ;;
         return_ omnikey_id
       else ret tt
     else ret tt)
    (fun _ => ret tt).

(** Lines 43-49: the create request. *)
Definition create_identity (url : string) (data : value) : M unit :=
  create_response <- post url data ;;
  raise_for_status create_response ;;
  _ <- json create_response ;;
  ret tt.

(** Lines 59-85: one turn of the retry loop. *)
Definition fetch_attempt (url : string) (data : value) (attempt : nat) : M unit :=
  try_except
    (fetch_response <- post url data ;;
     raise_for_status fetch_response ;;
     fetch_data <- json fetch_response ;;
     d <- get fetch_data "data" ;;
     if truthy d then
       d' <- getitem fetch_data "data" ;;
       if ne_str d' "0" then
         omnikey_id <- getitem fetch_data "data" ;;
         return_ omnikey_id
       else ret tt
     else ret tt)
    (fun _ => ret tt) ;;
  if (attempt <? max_retries - 1)%nat then
    wait_time <- index retry_delays attempt ;;
    sleep wait_time
  else ret tt.

(** Lines 12-89: the body of the outer [try]. *)
Definition resolve_body (user_address : string) : M unit :=
  fun w =>
    (let data := payload user_address in
     with_ClientSession 60
       (initial_fetch (fetch_identity_url w) data ;;
        create_identity (create_identity_url w) data ;;
        sleep 10 ;;
        for_in (range max_retries) (fetch_attempt (fetch_identity_url w) data) ;;
        return_ VNone)) w.

(** What the caller of a function observes. *)
Inductive outcome : Type :=
| Returned (v : value)
| Raised (e : exn).

(** A function body that runs off its end returns [None]. *)
Definition call (m : M unit) (w : env) : outcome * list event :=
  match m w {| sent := 0; trace := [] |} with
  | (Normal _, st) => (Returned VNone, trace st)
  | (Return v, st) => (Returned v, trace st)
  | (Raise e, st) => (Raised e, trace st)
  end.

(** Lines 1-93.  The statements before the outer [try] (the [getenv]
    call, the two f-strings, the dict literal) do not raise; [user] and
    [headers] are parameters the body never reads. *)
Definition create_and_fetch_identity
    (user : value) (user_address : string) (headers : value) (w : env)
  : outcome * list event :=
  call (try_except (resolve_body user_address) (fun _ => return_ VNone)) w.

(** ** Observations on answers and traces *)

(** The identity an answer of the "get" endpoint carries, if any: what
    the guarded block of the probe and of each retry turn extracts. *)
Definition identity_of (r : reply) : option value :=
  match r with
  | TransportError _ => None
  | Responded resp =>
      if ok resp then
        match content resp with
        | Json (VDict items) =>
            match lookup "data" items with
            | Some d => if truthy d && ne_str d "0" then Some d else None
            | None => None
            end
        | _ => None
        end
      else None
  end.

(** The exception an answer of the "create" endpoint leads to, if any. *)
Definition create_error (r : reply) : option exn :=
  match r with
  | TransportError e => Some e
  | Responded resp =>
      if ok resp then
        match content resp with
        | Malformed => Some JSONDecodeError
        | Json _ => None
        end
      else Some ClientResponseError
  end.

(** The answers of the "get" endpoint that yield no identity, by cause. *)
Inductive no_identity : reply -> Prop :=
| ni_transport e :
    no_identity (TransportError e)
| ni_status r :
    400 <= status r -> no_identity (Responded r)
| ni_malformed st :
    no_identity (Responded {| status := st; content := Malformed |})
| ni_not_object st v :
    (forall items, v <> VDict items) ->
    no_identity (Responded {| status := st; content := Json v |})
| ni_absent st items :
    lookup "data" items = None ->
    no_identity (Responded {| status := st; content := Json (VDict items) |})
| ni_falsy st items d :
    lookup "data" items = Some d -> truthy d = false ->
    no_identity (Responded {| status := st; content := Json (VDict items) |})
| ni_sentinel st items :
    lookup "data" items = Some (VStr "0") ->
    no_identity (Responded {| status := st; content := Json (VDict items) |}).

Definition is_post_to (url : string) (ev : event) : bool :=
  match ev with
  | Post u _ => (u =? url)%string
  | _ => false
  end.

(** How many requests of a trace went to [url]. *)
Definition posts_to (url : string) (tr : list event) : nat :=
  List.length (filter (is_post_to url) tr).

(** The events of the retry loop when it stops at its [k]-th turn. *)
Definition loop_events (fetch : event) (k : nat) : list event :=
  match k with
  | 1%nat => [fetch]
  | 2%nat => [fetch; Sleep 5; fetch]
  | _ => [fetch; Sleep 5; fetch; Sleep 10; fetch]
  end.

(** The state after a request. *)
Definition after_post (url : string) (data : value) (st : state) : state :=
  {| sent := S (sent st); trace := trace st ++ [Post url data] |}.

Definition fetch_request (w : env) (user_address : string) : event :=
  Post (fetch_identity_url w) (payload user_address).

Definition create_request (w : env) (user_address : string) : event :=
  Post (create_identity_url w) (payload user_address).

(** The remote's answer when the [n]-th request is a fetch. *)
Definition fetch_answer (w : env) (user_address : string) (n : nat) : reply :=
  remote w n (fetch_identity_url w) (payload user_address).

(** The remote's answer to the create request, which is request 1. *)
Definition create_answer (w : env) (user_address : string) : reply :=
  remote w 1%nat (create_identity_url w) (payload user_address).

Definition is_post (ev : event) : bool :=
  match ev with
  | Post _ _ => true
  | _ => false
  end.

(** How many [session.post] calls a trace holds.  A call is one event,
    whatever the client does on the wire to complete it. *)
Definition requests (tr : list event) : nat :=
  List.length (filter is_post tr).

(** The seconds a trace spends in [asyncio.sleep]. *)
Fixpoint slept (tr : list event) : Z :=
  match tr with
  | [] => 0
  | Sleep secs :: rest => secs + slept rest
  | _ :: rest => slept rest
  end.



(** What the remote puts on the wire, as far as [json()] tells it
    apart: the text of the body and whether the Content-Type header
    announces JSON. *)
Inductive wire_text : Type :=
| Blank                  (* empty, or white space only *)
| Garbage                (* not blank, and not a JSON document *)
| Document (v : value).  (* a JSON document, denoting [v] *)

Record wire : Type := mkWire { json_content_type : bool; text : wire_text }.

(** Whether the text can be parsed as JSON. *)
Definition parses_as_json (t : wire_text) : bool :=
  match t with
  | Document _ => true
  | Blank | Garbage => false
  end.

(** aiohttp's [ClientResponse.json()]: it raises when the content type is
    not JSON; otherwise it strips the body, returns None when nothing is
    left, and hands the rest to [json.loads]. *)
Definition json_result (wr : wire) : body :=
  if json_content_type wr then
    match text wr with
    | Blank => Json VNone
    | Garbage => Malformed
    | Document v => Json v
    end
  else Malformed.

(** ** Sample worlds *)

Definition data_body (d : value) : reply :=
  Responded {| status := 200; content := Json (VDict [("data", d)]) |}.

Definition created : reply :=
  Responded {| status := 200; content := Json (VDict []) |}.

(** A remote that answers the [n]-th request with the [n]-th entry of a
    script, and with [dflt] once the script is used up. *)
Definition scripted (script : list reply) (dflt : reply) : env :=
  {| getenv_UDP_BASE_URL := Some "https://udp.example";
     session_error := None;
     remote := fun n _ _ => nth n script dflt |}.

Definition no_session (e : exn) : env :=
  {| getenv_UDP_BASE_URL := None;
     session_error := Some e;
     remote := fun _ _ _ => TransportError ClientError |}.



Definition probe_raises_world : env :=
  scripted [TransportError ClientError; created; data_body (VStr "id-1")]
           (TransportError ClientError).

Definition create_rejected_world : env :=
  scripted [data_body (VStr "0");
            Responded {| status := 503; content := Json (VDict []) |}]
           (data_body (VStr "id-1")).

Definition create_300_world : env :=
  scripted [data_body (VStr "0");
            Responded {| status := 300; content := Json (VDict []) |}]
           (data_body (VStr "id-1")).

Definition create_garbled_world : env :=
  scripted [data_body (VStr "0");
            Responded {| status := 200; content := Malformed |}]
           (data_body (VStr "id-1")).


Definition third_attempt_world : env :=
  scripted [data_body (VStr "0"); created; data_body (VStr "0");
            data_body (VStr "0"); data_body (VStr "xyz")]
           (TransportError ClientError).

Definition never_ready_world : env :=
  scripted [data_body (VStr "0"); created] (data_body (VStr "0")).

Definition falsy_probe_world : env :=
  scripted [data_body (VInt 0); created] (data_body (VBool false)).




Definition probe_300_world : env :=
  scripted [Responded {| status := 300;
                         content := Json (VDict [("data", VStr "abc123")]) |}]
           (TransportError ClientError).

Definition create_blank_world : env :=
  scripted [data_body (VStr "0");
            Responded {| status := 200;
                         content := json_result {| json_content_type := true;
                                                   text := Blank |} |}]
           (data_body (VStr "id-1")).

Definition create_html_world : env :=
  scripted [data_body (VStr "0");
            Responded {| status := 200;
                         content := json_result {| json_content_type := false;
                                                   text := Garbage |} |}]
           (data_body (VStr "id-1")).

(** ** Runs on concrete worlds *)

Example run_existing :
  create_and_fetch_identity VNone "0xabc" VNone
    (scripted [data_body (VStr "abc123")] (TransportError ClientError))
  = (Returned (VStr "abc123"),
     [SessionOpen 60;
      Post "https://udp.example/identity/get" (payload "0xabc");
      SessionClose]).
Proof. reflexivity. Qed.

Example run_no_session :
  create_and_fetch_identity VNone "0xabc" VNone (no_session RuntimeError)
  = (Returned VNone, []).
Proof. reflexivity. Qed.

(** ** The blocks of the coroutine *)

Lemma append_eqb_prefix (p a b : string) :
  ((p ++ a) =? (p ++ b))%string = (a =? b)%string.
Proof.
  induction p as [|c p IH]; simpl; [reflexivity|].
  now rewrite Ascii.eqb_refl.
Qed.

Lemma create_url_not_fetch (w : env) :
  (create_identity_url w =? fetch_identity_url w)%string = false.
Proof. unfold create_identity_url, fetch_identity_url. now rewrite append_eqb_prefix. Qed.

Lemma fetch_url_not_create (w : env) :
  (fetch_identity_url w =? create_identity_url w)%string = false.
Proof. unfold create_identity_url, fetch_identity_url. now rewrite append_eqb_prefix. Qed.

Lemma initial_fetch_run (url : string) (data : value) (w : env) (st : state) :
  initial_fetch url data w st =
  (match identity_of (remote w (sent st) url data) with
   | Some v => Return v
   | None => Normal tt
   end, after_post url data st).
Proof.
  unfold initial_fetch, try_except, bind, post, identity_of, after_post.
  destruct (remote w (sent st) url data) as [e|r]; [reflexivity|].
  unfold raise_for_status, json.
  destruct (ok r); [|reflexivity].
  destruct (content r) as [|v]; [reflexivity|].
  destruct v; try reflexivity.
  unfold get, getitem, ret, return_. cbv iota beta.
  destruct (lookup "data" items) as [d|]; [|reflexivity].
  cbv iota beta. destruct (truthy d); [|reflexivity].
  cbv iota beta. destruct (ne_str d "0"); reflexivity.
Qed.

Lemma create_identity_run (url : string) (data : value) (w : env) (st : state) :
  create_identity url data w st =
  (match create_error (remote w (sent st) url data) with
   | Some e => Raise e
   | None => Normal tt
   end, after_post url data st).
Proof.
  unfold create_identity, bind, post, create_error, after_post.
  destruct (remote w (sent st) url data) as [e|r]; [reflexivity|].
  unfold raise_for_status, json.
  destruct (ok r); [|reflexivity].
  destruct (content r); reflexivity.
Qed.

Lemma fetch_attempt_run (url : string) (data : value) (i : nat) (w : env) (st : state) :
  fetch_attempt url data i w st =
  match identity_of (remote w (sent st) url data) with
  | Some v => (Return v, after_post url data st)
  | None =>
      if (i <? max_retries - 1)%nat then
        match nth_error retry_delays i with
        | Some secs => (Normal tt, log (Sleep secs) (after_post url data st))
        | None => (Raise IndexError, after_post url data st)
        end
      else (Normal tt, after_post url data st)
  end.
Proof.
  unfold fetch_attempt.
  change (try_except _ _) with (initial_fetch url data).
  unfold bind at 1. rewrite initial_fetch_run.
  destruct (identity_of _); [reflexivity|].
  destruct (i <? max_retries - 1)%nat; [|reflexivity].
  unfold bind, index. destruct (nth_error retry_delays i); reflexivity.
Qed.

(** ** The paths of one invocation *)

Lemma resolve_paths (user : value) (user_address : string) (headers : value) (w : env) :
  create_and_fetch_identity user user_address headers w =
  match session_error w with
  | Some _ => (Returned VNone, [])
  | None =>
      let F := fetch_request w user_address in
      let C := create_request w user_address in
      match identity_of (fetch_answer w user_address 0) with
      | Some v => (Returned v, [SessionOpen 60; F; SessionClose])
      | None =>
          match create_error (create_answer w user_address) with
          | Some _ => (Returned VNone, [SessionOpen 60; F; C; SessionClose])
          | None =>
              let head := [SessionOpen 60; F; C; Sleep 10] in
              match identity_of (fetch_answer w user_address 2) with
              | Some v => (Returned v, (head ++ loop_events F 1 ++ [SessionClose])%list)
              | None =>
                  match identity_of (fetch_answer w user_address 3) with
                  | Some v => (Returned v, (head ++ loop_events F 2 ++ [SessionClose])%list)
                  | None =>
                      (match identity_of (fetch_answer w user_address 4) with
                       | Some v => Returned v
                       | None => Returned VNone
                       end, (head ++ loop_events F 3 ++ [SessionClose])%list)
                  end
              end
          end
      end
  end.
Proof.
  unfold create_and_fetch_identity, call, try_except, resolve_body, with_ClientSession.
  destruct (session_error w); [reflexivity|].
  unfold fetch_answer, create_answer, fetch_request, create_request.
  unfold bind at 1. rewrite initial_fetch_run. cbn [sent trace log after_post app].
  destruct (identity_of (remote w 0%nat _ _)); [reflexivity|].
  unfold bind at 1. rewrite create_identity_run. cbn [sent trace log after_post app].
  destruct (create_error _); [reflexivity|].
  unfold bind at 1. unfold sleep at 1. cbn [sent trace log after_post app].
  unfold range, max_retries. cbn [seq for_in].
  unfold bind at 1. unfold bind at 1.
  rewrite fetch_attempt_run. cbn [sent trace log after_post app].
  destruct (identity_of (remote w 2%nat _ _)); [reflexivity|].
  cbn [Nat.ltb Nat.leb max_retries Nat.sub nth_error retry_delays sent trace log after_post app].
  unfold bind at 1.
  rewrite fetch_attempt_run. cbn [sent trace log after_post app].
  destruct (identity_of (remote w 3%nat _ _)); [reflexivity|].
  cbn [Nat.ltb Nat.leb max_retries Nat.sub nth_error retry_delays sent trace log after_post app].
  unfold bind at 1.
  rewrite fetch_attempt_run. cbn [sent trace log after_post app].
  destruct (identity_of (remote w 4%nat _ _)); reflexivity.
Qed.

(** [no_identity] lists exactly the answers from which the guarded
    block extracts nothing. *)
Lemma no_identity_none (r : reply) : no_identity r -> identity_of r = None.
Proof.
  intros H. destruct H as [e|r Hs|st|st v Hv|st items Hl|st items d Hl Hd|st items Hl];
    unfold identity_of, ok; cbn [status content].
  - reflexivity.
  - destruct (Z.ltb_spec (status r) 400); [lia|reflexivity].
  - now destruct (st <? 400).
  - destruct (st <? 400); [|reflexivity].
    destruct v; try reflexivity. now destruct (Hv items).
  - rewrite Hl. now destruct (st <? 400).
  - rewrite Hl, Hd. now destruct (st <? 400).
  - rewrite Hl. now destruct (st <? 400).
Qed.



Lemma ok_below_400 (r : response) : status r < 400 -> ok r = true.
Proof. intros H. unfold ok. now apply Z.ltb_lt. Qed.

Lemma ok_from_400 (r : response) : 400 <= status r -> ok r = false.
Proof. intros H. unfold ok. now apply Z.ltb_ge. Qed.

(** A create request in the trace means the session opened and the
    probe found nothing. *)
Lemma create_called_inv (user : value) (user_address : string) (headers : value) (w : env) :
  In (create_request w user_address)
     (snd (create_and_fetch_identity user user_address headers w)) ->
  session_error w = None /\ identity_of (fetch_answer w user_address 0) = None.
Proof.
  rewrite resolve_paths.
  destruct (session_error w); [intros []|].
  cbv zeta. destruct (identity_of (fetch_answer w user_address 0)); [|now split].
  cbn [snd In]. unfold create_request, fetch_request.
  intros [H|[H|[H|[]]]]; try discriminate.
  injection H as H. pose proof (fetch_url_not_create w) as N.
  rewrite H, String.eqb_refl in N. discriminate.
Qed.

Lemma is_post_to_create_fetch (w : env) (a : string) :
  is_post_to (create_identity_url w) (fetch_request w a) = false.
Proof. apply fetch_url_not_create. Qed.

Lemma is_post_to_create_create (w : env) (a : string) :
  is_post_to (create_identity_url w) (create_request w a) = true.
Proof. apply String.eqb_refl. Qed.

Ltac count_create_posts :=
  unfold posts_to, loop_events;
  cbn [app filter];
  repeat (rewrite ?is_post_to_create_fetch, ?is_post_to_create_create;
          cbn [filter is_post_to List.length]);
  try reflexivity.

(** ** The existence probe *)




(** After a probe that finds nothing the create request follows, and
    it is the only request to the create endpoint. *)
Lemma probe_miss_creates_once
    (user : value) (user_address : string) (headers : value) (w : env) :
  session_error w = None ->
  identity_of (fetch_answer w user_address 0) = None ->
  (exists rest,
      snd (create_and_fetch_identity user user_address headers w) =
        SessionOpen 60 :: fetch_request w user_address
          :: create_request w user_address :: rest)
  /\ posts_to (create_identity_url w)
       (snd (create_and_fetch_identity user user_address headers w)) = 1%nat.
Proof.
  intros Hs Hn.
  rewrite resolve_paths, Hs. cbv zeta. rewrite Hn.
  destruct (create_error _).
  { split; [eexists; reflexivity|]. cbn [snd]. count_create_posts. }
  destruct (identity_of (fetch_answer w user_address 2)).
  { split; [eexists; reflexivity|]. cbn [snd]. count_create_posts. }
  destruct (identity_of (fetch_answer w user_address 3)).
  { split; [eexists; reflexivity|]. cbn [snd]. count_create_posts. }
  split; [eexists; reflexivity|]. cbn [snd]. count_create_posts.
Qed.

(** C2, as amended.  When the session opens and the probe yields no
    identity (the data is the sentinel "0", is null, falsy or absent, or
    the probe raises on a transport error, on a status of 400 or more,
    or on a malformed body), the failure is swallowed: the next request is
    the create request, and it is the only request to the create endpoint
    in the invocation. *)
Theorem probe_failure_creates_once
    (user : value) (user_address : string) (headers : value) (w : env) :
  session_error w = None ->
  no_identity (fetch_answer w user_address 0) ->
  (exists rest,
      snd (create_and_fetch_identity user user_address headers w) =
        SessionOpen 60 :: fetch_request w user_address
          :: create_request w user_address :: rest)
  /\ posts_to (create_identity_url w)
       (snd (create_and_fetch_identity user user_address headers w)) = 1%nat.
Proof.
  intros Hs Hn. apply probe_miss_creates_once; [assumption|].
  now apply no_identity_none.
Qed.

Lemma probe_failure_creates_once_witness :
  (exists rest,
      snd (create_and_fetch_identity VNone "0xabc" VNone probe_raises_world) =
        SessionOpen 60 :: fetch_request probe_raises_world "0xabc"
          :: create_request probe_raises_world "0xabc" :: rest)
  /\ posts_to (create_identity_url probe_raises_world)
       (snd (create_and_fetch_identity VNone "0xabc" VNone probe_raises_world)) = 1%nat.
Proof.
  apply (probe_failure_creates_once VNone "0xabc" VNone probe_raises_world).
  - reflexivity.
  - apply ni_transport.
Defined.

(** C2, as stated, fails.  The probe is answered with status 300, which
    is not 2xx, and the object {"data": "abc123"}: [raise_for_status]
    lets it pass, nothing is raised, the identity is returned, and no
    request goes to the create endpoint. *)
Lemma probe_status_300_returns :
  fetch_answer probe_300_world "0xabc" 0 =
    Responded {| status := 300;
                 content := Json (VDict [("data", VStr "abc123")]) |}
  /\ ~ (200 <= 300 < 300)
  /\ create_and_fetch_identity VNone "0xabc" VNone probe_300_world =
       (Returned (VStr "abc123"),
        [SessionOpen 60;
         Post "https://udp.example/identity/get" (payload "0xabc");
         SessionClose])
  /\ posts_to (create_identity_url probe_300_world)
       (snd (create_and_fetch_identity VNone "0xabc" VNone probe_300_world)) = 0%nat.
Proof.
  repeat split; try reflexivity. lia.
Qed.

(** ** The create request *)

(** C3, as amended.  In an invocation that makes the create request,
    when that request fails in transport or is answered with a status of
    400 or more, the coroutine returns None and the create request is the
    last request: no settle delay, no fetch. *)
Theorem create_failure_aborts
    (user : value) (user_address : string) (headers : value) (w : env) :
  In (create_request w user_address)
     (snd (create_and_fetch_identity user user_address headers w)) ->
  (exists e, create_answer w user_address = TransportError e)
  \/ (exists r, create_answer w user_address = Responded r /\ 400 <= status r) ->
  create_and_fetch_identity user user_address headers w =
    (Returned VNone,
     [SessionOpen 60; fetch_request w user_address;
      create_request w user_address; SessionClose]).
Proof.
  intros Hc Hf. destruct (create_called_inv _ _ _ _ Hc) as [Hs Hp].
  rewrite resolve_paths, Hs. cbv zeta. rewrite Hp.
  destruct Hf as [[e He]|[r [Hr Hst]]].
  - rewrite He. reflexivity.
  - rewrite Hr. unfold create_error. now rewrite ok_from_400.
Qed.

Lemma create_failure_aborts_witness :
  create_and_fetch_identity VNone "0xabc" VNone create_rejected_world =
    (Returned VNone,
     [SessionOpen 60; fetch_request create_rejected_world "0xabc";
      create_request create_rejected_world "0xabc"; SessionClose]).
Proof.
  apply (create_failure_aborts VNone "0xabc" VNone create_rejected_world).
  - simpl. right. right. left. reflexivity.
  - right. exists {| status := 503; content := Json (VDict []) |}.
    split; [reflexivity|]. simpl. lia.
Defined.

(** C3, as stated, fails.  The create request is answered with status
    300, which is not 2xx, and a JSON body: [raise_for_status] lets it
    pass, the coroutine sleeps, fetches, and returns the identity. *)
Lemma create_status_300_proceeds :
  create_answer create_300_world "0xabc" =
    Responded {| status := 300; content := Json (VDict []) |}
  /\ ~ (200 <= 300 < 300)
  /\ create_and_fetch_identity VNone "0xabc" VNone create_300_world =
       (Returned (VStr "id-1"),
        [SessionOpen 60;
         Post "https://udp.example/identity/get" (payload "0xabc");
         Post "https://udp.example/identity/create" (payload "0xabc");
         Sleep 10;
         Post "https://udp.example/identity/get" (payload "0xabc");
         SessionClose]).
Proof.
  repeat split; try reflexivity. lia.
Qed.

(** When [json()] raises on a 2xx answer to the create request, the
    coroutine returns None and the create request is the last request:
    the settle delay and the retry loop are not reached. *)
Theorem create_unparseable_aborts
    (user : value) (user_address : string) (headers : value) (w : env) (st : Z) :
  In (create_request w user_address)
     (snd (create_and_fetch_identity user user_address headers w)) ->
  create_answer w user_address =
    Responded {| status := st; content := Malformed |} ->
  200 <= st < 300 ->
  create_and_fetch_identity user user_address headers w =
    (Returned VNone,
     [SessionOpen 60; fetch_request w user_address;
      create_request w user_address; SessionClose]).
Proof.
  intros Hc Ha Hst. destruct (create_called_inv _ _ _ _ Hc) as [Hs Hp].
  rewrite resolve_paths, Hs. cbv zeta. rewrite Hp, Ha.
  unfold create_error. rewrite ok_below_400 by (cbn; lia). reflexivity.
Qed.

Lemma create_unparseable_aborts_witness :
  create_and_fetch_identity VNone "0xabc" VNone create_garbled_world =
    (Returned VNone,
     [SessionOpen 60; fetch_request create_garbled_world "0xabc";
      create_request create_garbled_world "0xabc"; SessionClose]).
Proof.
  apply (create_unparseable_aborts VNone "0xabc" VNone create_garbled_world 200).
  - simpl. right. right. left. reflexivity.
  - reflexivity.
  - lia.
Defined.

(** C10, as amended.  In an invocation that makes the create request,
    when that request is answered with a 2xx status and a body on which
    [json()] raises (the text is neither blank nor a JSON document, or
    the content type is not JSON), the coroutine returns None and the
    create request is the last request: the settle delay and the retry
    loop are not reached. *)
Theorem create_json_error_aborts
    (user : value) (user_address : string) (headers : value) (w : env)
    (st : Z) (wr : wire) :
  In (create_request w user_address)
     (snd (create_and_fetch_identity user user_address headers w)) ->
  create_answer w user_address =
    Responded {| status := st; content := json_result wr |} ->
  200 <= st < 300 ->
  text wr = Garbage \/ json_content_type wr = false ->
  create_and_fetch_identity user user_address headers w =
    (Returned VNone,
     [SessionOpen 60; fetch_request w user_address;
      create_request w user_address; SessionClose]).
Proof.
  intros Hc Ha Hst Hw.
  assert (E : json_result wr = Malformed).
  { unfold json_result. destruct Hw as [Ht|Hct].
    - rewrite Ht. now destruct (json_content_type wr).
    - now rewrite Hct. }
  rewrite E in Ha.
  now apply create_unparseable_aborts with st.
Qed.

Lemma create_json_error_aborts_witness :
  create_and_fetch_identity VNone "0xabc" VNone create_html_world =
    (Returned VNone,
     [SessionOpen 60; fetch_request create_html_world "0xabc";
      create_request create_html_world "0xabc"; SessionClose]).
Proof.
  apply (create_json_error_aborts VNone "0xabc" VNone create_html_world 200
           {| json_content_type := false; text := Garbage |}).
  - simpl. right. right. left. reflexivity.
  - reflexivity.
  - lia.
  - left. reflexivity.
Defined.

(** C10, as stated, fails.  The create request is answered 200 with a
    blank body under a JSON content type: the body cannot be parsed as
    JSON, yet [json()] returns None instead of raising, and the coroutine
    sleeps, fetches, and returns the identity. *)
Lemma create_blank_body_proceeds :
  create_answer create_blank_world "0xabc" =
    Responded {| status := 200;
                 content := json_result {| json_content_type := true;
                                           text := Blank |} |}
  /\ 200 <= 200 < 300
  /\ parses_as_json Blank = false
  /\ create_and_fetch_identity VNone "0xabc" VNone create_blank_world =
       (Returned (VStr "id-1"),
        [SessionOpen 60;
         Post "https://udp.example/identity/get" (payload "0xabc");
         Post "https://udp.example/identity/create" (payload "0xabc");
         Sleep 10;
         Post "https://udp.example/identity/get" (payload "0xabc");
         SessionClose]).
Proof.
  repeat split; try reflexivity; lia.
Qed.



(** ** The retry loop *)

(** Whatever the list of turns, the loop sends at most one request per
    turn. *)
Lemma fetch_loop_sends_at_most
    (url : string) (data : value) (w : env) (xs : list nat) (st : state) :
  (sent (snd (for_in xs (fetch_attempt url data) w st)) <= sent st + List.length xs)%nat.
Proof.
  revert st. induction xs as [|i xs IH]; intros st; cbn [for_in List.length].
  - cbn. lia.
  - unfold bind. rewrite fetch_attempt_run.
    destruct (identity_of _); [cbn; lia|].
    destruct (i <? max_retries - 1)%nat; [destruct (nth_error retry_delays i)|].
    + specialize (IH (log (Sleep z) (after_post url data st))). cbn in IH |- *. lia.
    + cbn. lia.
    + specialize (IH (after_post url data st)). cbn in IH |- *. lia.
Qed.

(** C5.  In an invocation whose create request succeeds, the events
    after the settle delay are one, two or three fetches, with a sleep
    of 5 seconds between the first and the second, a sleep of 10 seconds
    between the second and the third, and the session close right after
    the last fetch.  In particular, when the three fetches are answered
    {"data": "0"}, {"data": "0"}, {"data": "xyz"}, the coroutine returns
    "xyz" after exactly three fetches separated by sleeps of 5 and 10. *)
Theorem retry_schedule
    (user : value) (user_address : string) (headers : value) (w : env)
    (r : response) (v : value) :
  In (create_request w user_address)
     (snd (create_and_fetch_identity user user_address headers w)) ->
  create_answer w user_address = Responded r ->
  status r < 400 ->
  content r = Json v ->
  let F := fetch_request w user_address in
  let head := [SessionOpen 60; F; create_request w user_address; Sleep 10] in
  let tr := snd (create_and_fetch_identity user user_address headers w) in
  (tr = (head ++ [F; SessionClose])%list
   \/ tr = (head ++ [F; Sleep 5; F; SessionClose])%list
   \/ tr = (head ++ [F; Sleep 5; F; Sleep 10; F; SessionClose])%list)
  /\ (fetch_answer w user_address 2 = data_body (VStr "0") ->
      fetch_answer w user_address 3 = data_body (VStr "0") ->
      fetch_answer w user_address 4 = data_body (VStr "xyz") ->
      create_and_fetch_identity user user_address headers w =
        (Returned (VStr "xyz"),
         (head ++ [F; Sleep 5; F; Sleep 10; F; SessionClose])%list)).
Proof.
  intros Hc Ha Hst Hj. destruct (create_called_inv _ _ _ _ Hc) as [Hs Hp].
  cbv zeta. rewrite resolve_paths, Hs. cbv zeta. rewrite Hp, Ha.
  unfold create_error. rewrite ok_below_400, Hj by assumption.
  split.
  - destruct (identity_of (fetch_answer w user_address 2)); [now left|].
    destruct (identity_of (fetch_answer w user_address 3)); [right; now left|].
    right; now right.
  - intros -> -> ->. reflexivity.
Qed.

Lemma retry_schedule_witness :
  create_and_fetch_identity VNone "0xabc" VNone third_attempt_world =
    (Returned (VStr "xyz"),
     [SessionOpen 60;
      fetch_request third_attempt_world "0xabc";
      create_request third_attempt_world "0xabc";
      Sleep 10;
      fetch_request third_attempt_world "0xabc";
      Sleep 5;
      fetch_request third_attempt_world "0xabc";
      Sleep 10;
      fetch_request third_attempt_world "0xabc";
      SessionClose]).
Proof.
  refine (proj2 (retry_schedule VNone "0xabc" VNone third_attempt_world
                   {| status := 200; content := Json (VDict []) |} (VDict [])
                   _ _ _ _) _ _ _).
  - simpl. right. right. left. reflexivity.
  - reflexivity.
  - simpl. lia.
  - reflexivity.
  - reflexivity.
  - reflexivity.
  - reflexivity.
Defined.

(** C6.  In an invocation whose create request succeeds, when each of
    the three fetches yields no identity (sentinel "0", absent, null or
    falsy data, a transport error, a status error, a malformed body), the
    coroutine returns None; the third fetch is the last request, and no
    sleep follows it. *)
Theorem retries_exhausted
    (user : value) (user_address : string) (headers : value) (w : env)
    (r : response) (v : value) :
  In (create_request w user_address)
     (snd (create_and_fetch_identity user user_address headers w)) ->
  create_answer w user_address = Responded r ->
  status r < 400 ->
  content r = Json v ->
  no_identity (fetch_answer w user_address 2) ->
  no_identity (fetch_answer w user_address 3) ->
  no_identity (fetch_answer w user_address 4) ->
  let F := fetch_request w user_address in
  create_and_fetch_identity user user_address headers w =
    (Returned VNone,
     [SessionOpen 60; F; create_request w user_address; Sleep 10;
      F; Sleep 5; F; Sleep 10; F; SessionClose]).
Proof.
  intros Hc Ha Hst Hj H2 H3 H4.
  destruct (create_called_inv _ _ _ _ Hc) as [Hs Hp].
  apply no_identity_none in H2, H3, H4.
  cbv zeta. rewrite resolve_paths, Hs. cbv zeta. rewrite Hp, Ha.
  unfold create_error. rewrite ok_below_400, Hj by assumption.
  now rewrite H2, H3, H4.
Qed.

Lemma retries_exhausted_witness :
  create_and_fetch_identity VNone "0xabc" VNone never_ready_world =
    (Returned VNone,
     [SessionOpen 60;
      fetch_request never_ready_world "0xabc";
      create_request never_ready_world "0xabc";
      Sleep 10;
      fetch_request never_ready_world "0xabc";
      Sleep 5;
      fetch_request never_ready_world "0xabc";
      Sleep 10;
      fetch_request never_ready_world "0xabc";
      SessionClose]).
Proof.
  apply (retries_exhausted VNone "0xabc" VNone never_ready_world
           {| status := 200; content := Json (VDict []) |} (VDict [])).
  - simpl. right. right. left. reflexivity.
  - reflexivity.
  - simpl. lia.
  - reflexivity.
  - apply (ni_sentinel 200 [("data", VStr "0")]). reflexivity.
  - apply (ni_sentinel 200 [("data", VStr "0")]). reflexivity.
  - apply (ni_sentinel 200 [("data", VStr "0")]). reflexivity.
Defined.

(** ** The public boundary *)

(** C7.  For every argument and every world, the call returns: no
    exception leaves the coroutine.  A session that cannot be
    constructed gives None with no event at all, and in general the
    value returned is either None or an identity that one of the fetch
    answers carried. *)
Theorem no_exception_escapes
    (user : value) (user_address : string) (headers : value) (w : env) :
  (exists v, fst (create_and_fetch_identity user user_address headers w) = Returned v)
  /\ (session_error w <> None ->
      create_and_fetch_identity user user_address headers w = (Returned VNone, []))
  /\ (fst (create_and_fetch_identity user user_address headers w) = Returned VNone
      \/ exists n v,
           identity_of (fetch_answer w user_address n) = Some v
           /\ fst (create_and_fetch_identity user user_address headers w) = Returned v).
Proof.
  rewrite resolve_paths.
  destruct (session_error w) as [e|].
  { split; [now exists VNone|]. split; [reflexivity|now left]. }
  cbv zeta. split; [|split; [now intros []|]].
  - destruct (identity_of (fetch_answer w user_address 0)); [eexists; reflexivity|].
    destruct (create_error _); [eexists; reflexivity|].
    destruct (identity_of (fetch_answer w user_address 2)); [eexists; reflexivity|].
    destruct (identity_of (fetch_answer w user_address 3)); [eexists; reflexivity|].
    destruct (identity_of (fetch_answer w user_address 4)); eexists; reflexivity.
  - destruct (identity_of (fetch_answer w user_address 0)) as [v|] eqn:E0;
      [right; now exists 0%nat, v|].
    destruct (create_error _); [now left|].
    destruct (identity_of (fetch_answer w user_address 2)) as [v|] eqn:E2;
      [right; now exists 2%nat, v|].
    destruct (identity_of (fetch_answer w user_address 3)) as [v|] eqn:E3;
      [right; now exists 3%nat, v|].
    destruct (identity_of (fetch_answer w user_address 4)) as [v|] eqn:E4;
      [right; now exists 4%nat, v|now left].
Qed.

(** C8.  The [user] and [headers] arguments are never read: two calls
    that differ only in them, in the same world, return the same value
    and leave the same trace of requests and sleeps. *)
Theorem user_and_headers_unused
    (user1 user2 : value) (headers1 headers2 : value)
    (user_address : string) (w : env) :
  create_and_fetch_identity user1 user_address headers1 w =
  create_and_fetch_identity user2 user_address headers2 w.
Proof. reflexivity. Qed.

(** ** Falsy data *)

(** C9.  The empty string, the integer 0, false and None are falsy, and
    an answer whose "data" value is falsy gives no identity: the probe
    block and every turn of the retry loop run through without
    returning, and after such a probe the next request is the create
    request. *)
Theorem falsy_data_is_no_identity
    (user : value) (user_address : string) (headers : value) (w : env)
    (st : Z) (items : list (string * value)) (d : value) :
  lookup "data" items = Some d ->
  truthy d = false ->
  (truthy (VStr "") = false /\ truthy (VInt 0) = false
   /\ truthy (VBool false) = false /\ truthy VNone = false)
  /\ (forall url data s,
        remote w (sent s) url data =
          Responded {| status := st; content := Json (VDict items) |} ->
        fst (initial_fetch url data w s) = Normal tt
        /\ forall attempt, fst (fetch_attempt url data attempt w s) = Normal tt)
  /\ (session_error w = None ->
      fetch_answer w user_address 0 =
        Responded {| status := st; content := Json (VDict items) |} ->
      exists rest,
        snd (create_and_fetch_identity user user_address headers w) =
          SessionOpen 60 :: fetch_request w user_address
            :: create_request w user_address :: rest).
Proof.
  intros Hl Hd.
  assert (N : identity_of (Responded {| status := st; content := Json (VDict items) |}) = None).
  { apply no_identity_none. now apply ni_falsy with d. }
  split; [repeat split|split].
  - intros url data s Hr. split.
    + rewrite initial_fetch_run, Hr, N. reflexivity.
    + intros attempt. rewrite fetch_attempt_run, Hr, N.
      destruct (Nat.ltb_spec attempt (max_retries - 1)) as [Hlt|]; [|reflexivity].
      unfold max_retries in Hlt. cbn in Hlt.
      destruct attempt as [|[|k]]; [reflexivity|reflexivity|lia].
  - intros Hs Ha.
    apply (probe_miss_creates_once user user_address headers w Hs).
    now rewrite Ha.
Qed.

Lemma falsy_data_is_no_identity_witness :
  exists rest,
    snd (create_and_fetch_identity VNone "0xabc" VNone falsy_probe_world) =
      SessionOpen 60 :: fetch_request falsy_probe_world "0xabc"
        :: create_request falsy_probe_world "0xabc" :: rest.
Proof.
  refine (proj2 (proj2 (falsy_data_is_no_identity VNone "0xabc" VNone falsy_probe_world
                          200 [("data", VInt 0)] (VInt 0) _ _)) _ _).
  - reflexivity.
  - reflexivity.
  - reflexivity.
  - reflexivity.
Defined.

(** ** Further properties of the coroutine *)

Lemma identity_of_some_inv (r : reply) (v : value) :
  identity_of r = Some v -> truthy v = true /\ v <> VStr "0" /\ v <> VNone.
Proof.
  destruct r as [e|resp]; [discriminate|].
  unfold identity_of. destruct (ok resp); [|discriminate].
  destruct (content resp) as [|j]; [discriminate|].
  destruct j; try discriminate.
  destruct (lookup "data" items) as [d|]; [|discriminate].
  destruct (truthy d) eqn:Ht; [|discriminate].
  destruct (ne_str d "0") eqn:Hn; [|discriminate].
  intros H. injection H as <-. split; [assumption|]. split.
  - intros ->. discriminate.
  - intros ->. discriminate.
Qed.



Lemma is_post_to_fetch_fetch (w : env) (a : string) :
  is_post_to (fetch_identity_url w) (fetch_request w a) = true.
Proof. apply String.eqb_refl. Qed.

Lemma is_post_to_fetch_create (w : env) (a : string) :
  is_post_to (fetch_identity_url w) (create_request w a) = false.
Proof. apply create_url_not_fetch. Qed.

Ltac count_posts :=
  unfold posts_to, loop_events;
  cbn [app filter];
  repeat (rewrite ?is_post_to_create_fetch, ?is_post_to_create_create,
            ?is_post_to_fetch_fetch, ?is_post_to_fetch_create;
          cbn [filter is_post_to List.length]).

(** Case analysis over the paths of [resolve_paths]. *)
Ltac each_path w a :=
  rewrite resolve_paths;
  destruct (session_error w);
  [|cbv zeta;
    destruct (identity_of (fetch_answer w a 0));
    [|destruct (create_error (create_answer w a));
      [|destruct (identity_of (fetch_answer w a 2));
        [|destruct (identity_of (fetch_answer w a 3));
          [|destruct (identity_of (fetch_answer w a 4))]]]]].



(** In every world an invocation calls [session.post] at most five
    times: at most once with the create URL, at most four times with the
    fetch URL, and never with another URL.  The count is of the calls the
    coroutine makes; redirects the client follows inside one call are
    not events of the trace. *)
Theorem request_budget
    (user : value) (user_address : string) (headers : value) (w : env) :
  let tr := snd (create_and_fetch_identity user user_address headers w) in
  (requests tr <= 5)%nat
  /\ (posts_to (create_identity_url w) tr <= 1)%nat
  /\ (posts_to (fetch_identity_url w) tr <= 4)%nat
  /\ requests tr =
       (posts_to (create_identity_url w) tr + posts_to (fetch_identity_url w) tr)%nat.
Proof.
  cbv zeta. each_path w user_address; cbn [snd]; count_posts;
    unfold requests, fetch_request, create_request; cbn; lia.
Qed.

(** In every world the sleeps of an invocation add up to 0, 10, 15 or
    25 seconds, and each single sleep lasts 5 or 10 seconds: the third
    entry of [retry_delays], 15, is never used. *)
Theorem sleep_budget
    (user : value) (user_address : string) (headers : value) (w : env) :
  let tr := snd (create_and_fetch_identity user user_address headers w) in
  (slept tr = 0 \/ slept tr = 10 \/ slept tr = 15 \/ slept tr = 25)
  /\ Forall (fun ev => match ev with
                       | Sleep secs => secs = 5 \/ secs = 10
                       | _ => True
                       end) tr.
Proof.
  cbv zeta. each_path w user_address; cbn [snd];
    unfold loop_events, fetch_request, create_request; cbn [app slept].
  all: split; [lia | repeat constructor; lia].
Qed.

(** Every [session.post] call of an invocation is given the same [json]
    argument, the wallet address as passed in under the key
    "walletAddress", and the fetch URL or the create URL as its [url]
    argument.  This is about the arguments of the calls, not about what
    the client sends on the wire when it follows a redirect. *)
Theorem requests_carry_wallet_address
    (user : value) (user_address : string) (headers : value) (w : env) :
  Forall (fun ev => match ev with
                    | Post url data =>
                        data = VDict [("walletAddress", VStr user_address)]
                        /\ (url = fetch_identity_url w \/ url = create_identity_url w)
                    | _ => True
                    end)
         (snd (create_and_fetch_identity user user_address headers w)).
Proof.
  each_path w user_address; cbn [snd];
    unfold loop_events, fetch_request, create_request, payload; cbn [app].
  all: repeat first [apply Forall_nil | apply Forall_cons]; try exact I.
  all: split; [reflexivity | auto].
Qed.




(** The value returned is None or a truthy value other than "0": the
    sentinel, the empty string, 0 and false are never handed to the
    caller. *)
Theorem result_is_none_or_identity
    (user : value) (user_address : string) (headers : value) (w : env) :
  exists v,
    fst (create_and_fetch_identity user user_address headers w) = Returned v
    /\ (v = VNone \/ (truthy v = true /\ v <> VStr "0")).
Proof.
  rewrite resolve_paths.
  destruct (session_error w); [exists VNone; now split; [|left]|].
  cbv zeta.
  destruct (identity_of (fetch_answer w user_address 0)) as [v|] eqn:E0.
  { exists v. split; [reflexivity|]. right. now apply identity_of_some_inv in E0. }
  destruct (create_error _); [exists VNone; now split; [|left]|].
  destruct (identity_of (fetch_answer w user_address 2)) as [v|] eqn:E2.
  { exists v. split; [reflexivity|]. right. now apply identity_of_some_inv in E2. }
  destruct (identity_of (fetch_answer w user_address 3)) as [v|] eqn:E3.
  { exists v. split; [reflexivity|]. right. now apply identity_of_some_inv in E3. }
  destruct (identity_of (fetch_answer w user_address 4)) as [v|] eqn:E4.
  { exists v. split; [reflexivity|]. right. now apply identity_of_some_inv in E4. }
  exists VNone. now split; [|left].
Qed.

(** Neither the probe block nor a turn of the retry loop raises, for any
    answer of the remote and any turn number: every exception inside is
    caught, the subscript ["data"] is only evaluated on a dict that has
    the key, and [retry_delays] is only indexed within its length.  Each
    sends exactly one request. *)
Theorem guarded_blocks_never_raise
    (url : string) (data : value) (attempt : nat) (w : env) (st : state) :
  (forall e, fst (initial_fetch url data w st) <> Raise e)
  /\ (forall e, fst (fetch_attempt url data attempt w st) <> Raise e)
  /\ sent (snd (initial_fetch url data w st)) = S (sent st)
  /\ sent (snd (fetch_attempt url data attempt w st)) = S (sent st).
Proof.
  rewrite initial_fetch_run, fetch_attempt_run.
  destruct (identity_of (remote w (sent st) url data)).
  { repeat split; discriminate. }
  destruct (Nat.ltb_spec attempt (max_retries - 1)) as [Hlt|Hge].
  - unfold max_retries in Hlt. cbn in Hlt.
    destruct attempt as [|[|k]]; [| |lia]; repeat split; discriminate.
  - repeat split; discriminate.
Qed.





